(** * SDR Finder: header normalisation, record projection, lookup and ingestion

    A shallow embedding of the data path of [src/App.jsx]:

    - the loop body of [processedData] (lines 95-108), which cleans each
      column header, routes the cell to [salesLevel6], [sdrName] or a
      passthrough property, and filters the rows that lack a required field;
    - [handleSearchChange] (lines 144-187), the first-wins substring lookup
      built on a JavaScript [Map];
    - the [reader.onload] callback of [handleFileUpload] (lines 75-129),
      [clearSearch] and [resetApp], as transitions on the component state;
    - the synchronous part of [handleFileUpload] with its in-flight reads,
      the choice between the text and the binary path by file name, and
      the styling of the message paragraph in the view.

    Modelling conventions.
    - JavaScript strings are [string]s of ASCII characters: [toLowerCase]
      lowers the letters A-Z and [trim] removes the ASCII white space
      (TAB, LF, VT, FF, CR, SPACE) at both ends.
    - A cell value is [undefined], a string, an integer-valued number or a
      boolean; [js_String] is the builtin [String(v)] and [truthy] the
      builtin boolean coercion.
    - An object used as a record ([row], [newRow]) is a [gmap string value]
      holding its own properties; a raw row is the list of its (header,
      cell) pairs in [for ... in] order; the [Map] of the lookup is an
      association list in insertion order.  Writing a cell with
      [obj[k] = v] creates or overwrites an own property, except under the
      key [__proto__], which is the accessor inherited from
      [Object.prototype]: its setter ignores a primitive value.
    - The external parser (SheetJS) is an input: the rows it returned, or
      the fact that it threw. *)

From Stdlib Require Import Ascii String ZArith.
From stdpp Require Import gmap strings list fin_maps pretty.

Open Scope string_scope.
Open Scope list_scope.
Open Scope nat_scope.

(** ** JavaScript strings *)

Module JsString.

Definition isUpper (c : ascii) : bool :=
  (65 <=? nat_of_ascii c)%nat && (nat_of_ascii c <=? 90)%nat.

Definition toLowerChar (c : ascii) : ascii :=
  if isUpper c then ascii_of_nat (nat_of_ascii c + 32) else c.

(** [s.toLowerCase()] *)
Fixpoint toLowerCase (s : string) : string :=
  match s with
  | EmptyString => EmptyString
  | String c s' => String (toLowerChar c) (toLowerCase s')
  end.

Definition isWhiteSpace (c : ascii) : bool :=
  let n := nat_of_ascii c in
  ((9 <=? n)%nat && (n <=? 13)%nat) || (n =? 32)%nat.

Fixpoint trimStart (s : string) : string :=
  match s with
  | EmptyString => EmptyString
  | String c s' => if isWhiteSpace c then trimStart s' else s
  end.

Fixpoint trimEnd (s : string) : string :=
  match s with
  | EmptyString => EmptyString
  | String c s' =>
      match trimEnd s' with
      | EmptyString => if isWhiteSpace c then EmptyString else String c EmptyString
      | r => String c r
      end
  end.

(** [s.trim()] *)
Definition trim (s : string) : string := trimEnd (trimStart s).

(** [s.startsWith(p)] *)
Fixpoint startsWith (s p : string) : bool :=
  match p, s with
  | EmptyString, _ => true
  | String _ _, EmptyString => false
  | String a p', String b s' => if Ascii.eqb a b then startsWith s' p' else false
  end.

(** [s.includes(needle)] *)
Fixpoint includes (s needle : string) : bool :=
  startsWith s needle ||
  match s with
  | EmptyString => false
  | String _ s' => includes s' needle
  end.

(** [needle] occurs in [s] as a contiguous block. *)
Definition substring_of (needle s : string) : Prop :=
  ∃ pre post, s = pre +:+ (needle +:+ post).

(** No white space in front. *)
Definition startsClean (s : string) : Prop :=
  match s with
  | EmptyString => True
  | String c _ => isWhiteSpace c = false
  end.

End JsString.

Import JsString.

(** ** JavaScript values found in cells *)

Inductive value :=
| VUndefined
| VString (s : string)
| VNumber (n : Z)
| VBoolean (b : bool).

#[global] Instance value_eq_dec : EqDecision value.
Proof. solve_decision. Defined.

(** The boolean coercion applied by [&&] and by [filter]. *)
Definition truthy (v : value) : bool :=
  match v with
  | VUndefined => false
  | VString s => negb (String.eqb s "")
  | VNumber n => negb (n =? 0)%Z
  | VBoolean b => b
  end.

(** [String(v)] *)
Definition js_String (v : value) : string :=
  match v with
  | VUndefined => "undefined"
  | VString s => s
  | VNumber n => pretty n
  | VBoolean true => "true"
  | VBoolean false => "false"
  end.

Definition isString (v : value) : Prop :=
  match v with VString _ => True | _ => False end.

(** ** Rows *)

(** A row as SheetJS returns it: the (header, cell) pairs in key order. *)
Abbreviation rawRow := (list (string * value)).

(** [row.k] on an object: [undefined] when the property is absent. *)
Definition prop (row : gmap string value) (k : string) : value :=
  default VUndefined (row !! k).

(** ** The record projector (App.jsx, lines 95-108) *)

(** [String(key).trim().toLowerCase()] *)
Definition cleanedKey (key : string) : string := toLowerCase (trim key).

(** [obj[k] = v] on an object literal, for a cell [v] (a primitive): an own
    property is created or overwritten, unless [k] is [__proto__]; that key
    reaches the setter inherited from [Object.prototype], which does
    nothing when the value is neither an object nor [null]. *)
Definition setProp (obj : gmap string value) (k : string) (v : value) : gmap string value :=
  if String.eqb k "__proto__" then obj else <[k := v]> obj.

(** The body of the [for (const key in row)] loop. *)
Definition assign (newRow : gmap string value) (kv : string * value) : gmap string value :=
  let cleaned := cleanedKey kv.1 in
  if includes cleaned "sales level 6" then setProp newRow "salesLevel6" kv.2
  else if includes cleaned "sdr" then setProp newRow "sdrName" kv.2
  else setProp newRow cleaned kv.2.

(** The callback of [json.map]. *)
Definition projectRow (row : rawRow) : gmap string value :=
  foldl assign ∅ row.

(** The callback of [.filter]: [row.salesLevel6 && row.sdrName]. *)
Definition hasBothFields (row : gmap string value) : bool :=
  truthy (prop row "salesLevel6") && truthy (prop row "sdrName").

Definition processedData (json : list rawRow) : list (gmap string value) :=
  filter (λ row, hasBothFields row) (projectRow <$> json).

(** The key under which the loop body assigns the cell of a header. *)
Definition headerField (key : string) : string :=
  let cleaned := cleanedKey key in
  if includes cleaned "sales level 6" then "salesLevel6"
  else if includes cleaned "sdr" then "sdrName"
  else cleaned.

(** ** The lookup (App.jsx, lines 144-187) *)

(** An entry of [filteredResults]: the object literal
    [{ salesLevel6: row.salesLevel6, sdrName: row.sdrName }]. *)
Record result := Result { salesLevel6 : value; sdrName : value }.

#[global] Instance result_eq_dec : EqDecision result.
Proof. solve_decision. Defined.

(** [uniqueResultsMap]: a [Map] keeps its entries in insertion order. *)
Abbreviation resultsMap := (list (string * result)).

(** [m.has(k)] *)
Definition mapHas (m : resultsMap) (k : string) : bool :=
  existsb (λ e, String.eqb e.1 k) m.

(** [m.set(k, r)] for a [k] that [m] does not hold: the entry goes last. *)
Definition mapSetFresh (m : resultsMap) (k : string) (r : result) : resultsMap :=
  m ++ [(k, r)].

(** [Array.from(m.values())] *)
Definition mapValues (m : resultsMap) : list result := m.*2.

(** [String(row.salesLevel6).toLowerCase()] *)
Definition salesLevel6Key (row : gmap string value) : string :=
  toLowerCase (js_String (prop row "salesLevel6")).

(** The condition of the [if] inside [excelData.forEach]. *)
Definition rowMatches (term : string) (row : gmap string value) : bool :=
  truthy (prop row "salesLevel6")
  && includes (toLowerCase (js_String (prop row "salesLevel6"))) (toLowerCase term).

Definition resultOf (row : gmap string value) : result :=
  {| salesLevel6 := prop row "salesLevel6"; sdrName := prop row "sdrName" |}.

(** The callback of [excelData.forEach]. *)
Definition visit (term : string) (m : resultsMap) (row : gmap string value) : resultsMap :=
  if rowMatches term row then
    if negb (mapHas m (salesLevel6Key row))
    then mapSetFresh m (salesLevel6Key row) (resultOf row)
    else m
  else m.

(** The [results] array computed in the first branch. *)
Definition searchResults (term : string) (excelData : list (gmap string value)) : list result :=
  mapValues (foldl (visit term) [] excelData).

(** ** Component state *)

(** The texts shown to the user, one constructor per literal of the source. *)
Inductive message :=
| MsgLoadingLibrary
| MsgGetStarted
| MsgLibraryFailed
| MsgSelectFile
| MsgLibraryStillLoading
| MsgLoaded (count : nat) (fileName : string)
| MsgNoValidData
| MsgFailedToRead
| MsgNoMatching
| MsgStartTyping
| MsgUploadFirst
| MsgSearchCleared
| MsgAppReset
| MsgNone.

Record state := State {
  excelData : list (gmap string value);
  searchTerm : string;
  filteredResults : list result;
  msg : message;
  fileSelected : bool;
  isXLSXLoaded : bool;
  (** [fileInputRef.current.value]; [None] while the ref is detached *)
  fileInput : option string
}.

(** [if (fileInputRef.current) fileInputRef.current.value = ''] *)
Definition clearFileInput (fi : option string) : option string :=
  match fi with Some _ => Some "" | None => None end.

Definition initialState : state :=
  {| excelData := []; searchTerm := ""; filteredResults := [];
     msg := MsgLoadingLibrary; fileSelected := false; isXLSXLoaded := false;
     fileInput := None |}.

Definition handleSearchChange (term : string) (st : state) : state :=
  if (0 <? String.length term)%nat && (0 <? length (excelData st))%nat then
    let results := searchResults term (excelData st) in
    {| excelData := excelData st; searchTerm := term; filteredResults := results;
       msg := if (length results =? 0)%nat then MsgNoMatching else MsgNone;
       fileSelected := fileSelected st; isXLSXLoaded := isXLSXLoaded st;
       fileInput := fileInput st |}
  else
    {| excelData := excelData st; searchTerm := term; filteredResults := [];
       msg := if (0 <? length (excelData st))%nat then MsgStartTyping
              else if (0 <? String.length term)%nat then MsgUploadFirst
              else MsgNone;
       fileSelected := fileSelected st; isXLSXLoaded := isXLSXLoaded st;
       fileInput := fileInput st |}.

Definition clearSearch (st : state) : state :=
  {| excelData := excelData st; searchTerm := ""; filteredResults := [];
     msg := if (0 <? length (excelData st))%nat then MsgSearchCleared else MsgGetStarted;
     fileSelected := fileSelected st; isXLSXLoaded := isXLSXLoaded st;
     fileInput := fileInput st |}.

Definition resetApp (st : state) : state :=
  {| excelData := []; searchTerm := ""; filteredResults := [];
     msg := MsgAppReset; fileSelected := false; isXLSXLoaded := isXLSXLoaded st;
     fileInput := clearFileInput (fileInput st) |}.

(** ** Ingestion (App.jsx, lines 53-137) *)

(** What lines 77-91 delivered: the rows of the first sheet, or an exception. *)
Inductive parsed :=
| ParserThrew
| ParserReturned (json : list rawRow).

(** The [reader.onload] callback, run on the state current at that time. *)
Definition onload (fileName : string) (p : parsed) (st : state) : state :=
  match p with
  | ParserReturned json =>
      let data := processedData json in
      if (0 <? length data)%nat then
        {| excelData := data; searchTerm := searchTerm st; filteredResults := [];
           msg := MsgLoaded (length data) fileName;
           fileSelected := fileSelected st; isXLSXLoaded := isXLSXLoaded st;
           fileInput := fileInput st |}
      else
        {| excelData := []; searchTerm := searchTerm st;
           filteredResults := filteredResults st;
           msg := MsgNoValidData;
           fileSelected := fileSelected st; isXLSXLoaded := isXLSXLoaded st;
           fileInput := clearFileInput (fileInput st) |}
  | ParserThrew =>
      {| excelData := []; searchTerm := searchTerm st;
         filteredResults := filteredResults st;
         msg := MsgFailedToRead;
         fileSelected := fileSelected st; isXLSXLoaded := isXLSXLoaded st;
         fileInput := clearFileInput (fileInput st) |}
  end.

(** The synchronous part of [handleFileUpload]: [file] is the name of
    [event.target.files[0]], if any.  The second component tells whether a
    read was started, whose completion runs [onload]. *)
Definition handleFileUpload (file : option string) (st : state) : state * bool :=
  match file with
  | None =>
      ({| excelData := []; searchTerm := searchTerm st; filteredResults := [];
          msg := MsgSelectFile; fileSelected := false;
          isXLSXLoaded := isXLSXLoaded st; fileInput := fileInput st |}, false)
  | Some _ =>
      if negb (isXLSXLoaded st) then
        ({| excelData := excelData st; searchTerm := searchTerm st;
            filteredResults := filteredResults st;
            msg := MsgLibraryStillLoading; fileSelected := fileSelected st;
            isXLSXLoaded := isXLSXLoaded st;
            fileInput := clearFileInput (fileInput st) |}, false)
      else
        ({| excelData := excelData st; searchTerm := searchTerm st;
            filteredResults := filteredResults st;
            msg := msg st; fileSelected := true;
            isXLSXLoaded := isXLSXLoaded st; fileInput := fileInput st |}, true)
  end.

(** A whole upload whose read completes before any other event. *)
Definition upload (fileName : string) (p : parsed) (st : state) : state :=
  let '(st1, started) := handleFileUpload (Some fileName) st in
  if started then onload fileName p st1 else st1.

(** ** Scenario data *)

Definition scenarioA : list rawRow :=
  [ [("Sales Level 6", VString "West-1"); ("SDR Name", VString "Alice")];
    [("Sales Level 6", VString "west-1"); ("SDR Name", VString "Bob")];
    [("Sales Level 6", VString "East-9"); ("SDR", VString "Carol")] ].

Definition scenarioB : list rawRow :=
  [ [("Region", VString "West-1"); ("Owner", VString "Alice")] ].

Definition scenarioA_result : list result :=
  [ {| salesLevel6 := VString "West-1"; sdrName := VString "Alice" |} ].

(** A state in which the parsing library is loaded and the input attached. *)
Definition readyState : state :=
  {| excelData := []; searchTerm := ""; filteredResults := [];
     msg := MsgGetStarted; fileSelected := false; isXLSXLoaded := true;
     fileInput := Some "" |}.

(** ** Events of the component *)

Inductive event :=
| LibraryLoaded
| LibraryFailed
| FileChosen (file : option string)
| ReadCompleted (fileName : string) (p : parsed)
| SearchTyped (term : string)
| SearchCleared
| ResetClicked.

(** [script.onload] of the effect that fetches the parsing library. *)
Definition libraryLoaded (st : state) : state :=
  {| excelData := excelData st; searchTerm := searchTerm st;
     filteredResults := filteredResults st; msg := MsgGetStarted;
     fileSelected := fileSelected st; isXLSXLoaded := true;
     fileInput := fileInput st |}.

(** [script.onerror] of the same effect. *)
Definition libraryFailed (st : state) : state :=
  {| excelData := excelData st; searchTerm := searchTerm st;
     filteredResults := filteredResults st; msg := MsgLibraryFailed;
     fileSelected := fileSelected st; isXLSXLoaded := isXLSXLoaded st;
     fileInput := fileInput st |}.

Definition step (st : state) (ev : event) : state :=
  match ev with
  | LibraryLoaded => libraryLoaded st
  | LibraryFailed => libraryFailed st
  | FileChosen file => (handleFileUpload file st).1
  | ReadCompleted fileName p => onload fileName p st
  | SearchTyped term => handleSearchChange term st
  | SearchCleared => clearSearch st
  | ResetClicked => resetApp st
  end.

Definition run (evs : list event) : state := foldl step initialState evs.

(** Both required fields of every record are truthy. *)
Definition canonical (data : list (gmap string value)) : Prop :=
  Forall (λ r, hasBothFields r = true) data.

(** Scenario A loaded, with "west" typed in the search box. *)
Definition loadedA : state := upload "territories.csv" (ParserReturned scenarioA) readyState.
Definition searchedA : state := handleSearchChange "west" loadedA.

(** ** First-wins lookup, stated on positions

    The reading of the lookup that the specification gives in words: a row
    contributes a result exactly when it matches the query and no earlier
    row matching the query has the same lowercased key; results come in the
    order of those rows. *)

(** The case-insensitive identity of a result. *)
Definition dedupKey (r : result) : string :=
  toLowerCase (js_String (salesLevel6 r)).

Definition isFirstMatch (term : string) (data : list (gmap string value))
    (i : nat) (row : gmap string value) : bool :=
  rowMatches term row
  && forallb (λ row', negb (rowMatches term row'
                            && String.eqb (salesLevel6Key row') (salesLevel6Key row)))
       (take i data).

Definition firstRows (term : string) (data : list (gmap string value))
    : list (gmap string value) :=
  (filter (λ ir : nat * gmap string value, isFirstMatch term data ir.1 ir.2)
          (imap pair data)).*2.

Definition firstWins (term : string) (data : list (gmap string value)) : list result :=
  resultOf <$> firstRows term data.

(** ** File type dispatch (App.jsx, lines 79 and 132) *)

(** [s.endsWith(suffix)] *)
Fixpoint endsWith (s suffix : string) : bool :=
  String.eqb s suffix ||
  match s with
  | EmptyString => false
  | String _ s' => endsWith s' suffix
  end.

(** [file.name.toLowerCase().endsWith('.csv')] *)
Definition isCsvName (fileName : string) : bool :=
  endsWith (toLowerCase fileName) ".csv".

Inductive readMethod := ReadAsText | ReadAsArrayBuffer.

(** The [FileReader] method chosen on line 132. *)
Definition readMethodOf (fileName : string) : readMethod :=
  if isCsvName fileName then ReadAsText else ReadAsArrayBuffer.

Inductive parseType := TypeString | TypeArray.

(** The [type] option passed to [XLSX.read] on lines 79-87. *)
Definition parseTypeOf (fileName : string) : parseType :=
  if isCsvName fileName then TypeString else TypeArray.

(** ** In-flight reads

    [handleFileUpload] creates one [FileReader] per accepted file and
    returns; the read completes later, in any order relative to other
    reads and events, and then runs [onload] with the captured name. *)

Record system := System {
  ui : state;
  (** names of the files whose read has started and not yet completed *)
  pending : list string
}.

Inductive sysEvent :=
| SLibraryLoaded
| SLibraryFailed
| SFileChosen (file : option string)
| SReadDone (i : nat) (p : parsed)
| SSearchTyped (term : string)
| SSearchCleared
| SResetClicked.

Definition sysStep (s : system) (ev : sysEvent) : system :=
  match ev with
  | SLibraryLoaded => {| ui := libraryLoaded (ui s); pending := pending s |}
  | SLibraryFailed => {| ui := libraryFailed (ui s); pending := pending s |}
  | SFileChosen file =>
      let r := handleFileUpload file (ui s) in
      {| ui := r.1;
         pending := match file with
                    | Some name => if r.2 then pending s ++ [name] else pending s
                    | None => pending s
                    end |}
  | SReadDone i p =>
      match pending s !! i with
      | Some name => {| ui := onload name p (ui s); pending := delete i (pending s) |}
      | None => s
      end
  | SSearchTyped term => {| ui := handleSearchChange term (ui s); pending := pending s |}
  | SSearchCleared => {| ui := clearSearch (ui s); pending := pending s |}
  | SResetClicked => {| ui := resetApp (ui s); pending := pending s |}
  end.

Definition sysRun (evs : list sysEvent) : system :=
  foldl sysStep {| ui := initialState; pending := [] |} evs.

(** ** What the view shows (App.jsx, lines 274-283) *)

Definition dquote : string := String (ascii_of_nat 34) EmptyString.

(** The literal behind each message. *)
Definition messageText (m : message) : string :=
  match m with
  | MsgLoadingLibrary => "Loading Excel parsing library..."
  | MsgGetStarted => "Upload an Excel or CSV file to get started."
  | MsgLibraryFailed =>
      "Failed to load Excel parsing library. Please check your internet connection and try refreshing."
  | MsgSelectFile => "Please select an Excel or CSV file to upload."
  | MsgLibraryStillLoading =>
      "Excel parsing library is still loading. Please wait a moment and try again."
  | MsgLoaded count fileName =>
      "Successfully loaded " +:+ pretty count +:+ " records from " +:+ dquote
        +:+ fileName +:+ dquote +:+ ". You can now search."
  | MsgNoValidData =>
      "No valid " +:+ dquote +:+ "Sales Level 6" +:+ dquote +:+ " or " +:+ dquote
        +:+ "SDR Name" +:+ dquote
        +:+ " data found in the file. Please ensure these columns exist."
  | MsgFailedToRead =>
      "Failed to read file. Please ensure it is a valid .xlsx, .xls, or .csv file."
  | MsgNoMatching => "No matching Sales Level 6 found."
  | MsgStartTyping => "Start typing in the search bar to find SDRs by Sales Level 6."
  | MsgUploadFirst => "Please upload a file first to search."
  | MsgSearchCleared => "Search cleared. You can now enter a new Sales Level 6 to find."
  | MsgAppReset => "App reset. Upload an Excel or CSV file to get started."
  | MsgNone => ""
  end.

Inductive messageStyle := Hidden | Green | Blue | Red.

(** The conditional rendering and class of the message paragraph. *)
Definition messageStyleOf (m : message) : messageStyle :=
  let text := messageText m in
  if String.eqb text "" then Hidden
  else if includes text "Successfully loaded" then Green
  else if includes text "Loading" then Blue
  else Red.

(** ** The lookup on results *)

(** The condition of [rowMatches], read on a result. *)
Definition resultMatches (term : string) (r : result) : bool :=
  truthy (salesLevel6 r) && includes (dedupKey r) (toLowerCase term).

(** No header of any row is routed to the property [f]. *)
Definition lacksColumn (f : string) (json : list rawRow) : Prop :=
  Forall (λ row : rawRow, Forall (λ kv, headerField kv.1 ≠ f) row) json.

(** Rows with the same cleaned headers and the same cells. *)
Definition sameCleanedHeaders (row1 row2 : rawRow) : Prop :=
  Forall2 (λ a b, cleanedKey a.1 = cleanedKey b.1 ∧ a.2 = b.2) row1 row2.

(** The two properties every displayed result list has. *)
Definition wellFormedResults (rs : list result) : Prop :=
  Forall (λ r, truthy (salesLevel6 r) = true ∧ truthy (sdrName r) = true) rs
  ∧ NoDup (dedupKey <$> rs).

(** While the library is missing nothing has been read or selected. *)
Definition libraryGuard (s : system) : Prop :=
  isXLSXLoaded (ui s) = false →
  pending s = [] ∧ excelData (ui s) = [] ∧ fileSelected (ui s) = false.

(** The rows the record set comes from after an event: those a completed
    read returned, none after a failed read, a cancelled file dialog or a
    reset, and the previous ones otherwise. *)
Definition recordSource (rows : list rawRow) (ev : event) : list rawRow :=
  match ev with
  | ReadCompleted _ (ParserReturned json) => json
  | ReadCompleted _ ParserThrew => []
  | FileChosen None => []
  | ResetClicked => []
  | _ => rows
  end.

Definition lastFile (evs : list event) : list rawRow := foldl recordSource [] evs.

(** What the message on display says about the rest of the state. *)
Definition messageConsistent (st : state) : Prop :=
  match msg st with
  | MsgLoaded count _ =>
      length (excelData st) = count ∧ 0 < count ∧ filteredResults st = []
  | MsgNoValidData | MsgFailedToRead => excelData st = []
  | MsgSelectFile => excelData st = [] ∧ filteredResults st = []
  | MsgNoMatching =>
      excelData st ≠ [] ∧ searchTerm st ≠ "" ∧ filteredResults st = []
  | MsgStartTyping | MsgSearchCleared =>
      excelData st ≠ [] ∧ searchTerm st = "" ∧ filteredResults st = []
  | MsgUploadFirst =>
      excelData st = [] ∧ searchTerm st ≠ "" ∧ filteredResults st = []
  | MsgAppReset =>
      excelData st = [] ∧ searchTerm st = "" ∧ filteredResults st = []
  | MsgNone =>
      (excelData st ≠ [] ∧ searchTerm st ≠ "" ∧ filteredResults st ≠ [])
      ∨ (excelData st = [] ∧ searchTerm st = "" ∧ filteredResults st = [])
  | MsgLoadingLibrary | MsgGetStarted | MsgLibraryFailed | MsgLibraryStillLoading => True
  end.

(** * Properties *)

(** ** Strings *)

Section StringFacts.

Local Ltac by_cases_on_char c :=
  destruct c as [[] [] [] [] [] [] [] []]; vm_compute; reflexivity.

Lemma app_empty_l (s : string) : "" +:+ s = s.
Proof. reflexivity. Qed.

Lemma app_String_l (c : ascii) (s t : string) :
  String c s +:+ t = String c (s +:+ t).
Proof. reflexivity. Qed.

Lemma startsWith_spec (s p : string) :
  startsWith s p = true ↔ ∃ post, s = p +:+ post.
Proof.
  revert s. induction p as [|a p IH]; intros s.
  - split; [intros _; by exists s | by destruct s].
  - destruct s as [|b s]; simpl.
    + split; [done | intros [post Hpost]; rewrite app_String_l in Hpost; discriminate].
    + destruct (Ascii.eqb_spec a b) as [->|Hne].
      * rewrite IH. split; intros [post Hpost]; exists post.
        -- by rewrite app_String_l, Hpost.
        -- rewrite app_String_l in Hpost. by injection Hpost.
      * split; [done|]. intros [post Hpost].
        rewrite app_String_l in Hpost. by injection Hpost as ->.
Qed.

Lemma includes_spec (s needle : string) :
  includes s needle = true ↔ substring_of needle s.
Proof.
  unfold substring_of. induction s as [|c s IH]; cbn [includes].
  - rewrite orb_false_r, startsWith_spec. split.
    + intros [post Hpost]. by exists "", post.
    + intros ([|d pre] & post & Hpost); [by exists post | discriminate].
  - rewrite orb_true_iff, startsWith_spec, IH. split.
    + intros [[post Hpost] | (pre & post & Hpost)].
      * by exists "", post.
      * exists (String c pre), post. by rewrite app_String_l, Hpost.
    + intros ([|d pre] & post & Hpost).
      * left. by exists post.
      * right. rewrite app_String_l in Hpost. injection Hpost as _ ->.
        by exists pre, post.
Qed.

Lemma toLowerChar_idemp (c : ascii) : toLowerChar (toLowerChar c) = toLowerChar c.
Proof. by_cases_on_char c. Qed.

Lemma isWhiteSpace_toLowerChar (c : ascii) :
  isWhiteSpace (toLowerChar c) = isWhiteSpace c.
Proof. by_cases_on_char c. Qed.

Lemma toLowerCase_idemp (s : string) : toLowerCase (toLowerCase s) = toLowerCase s.
Proof. induction s as [|c s IH]; simpl; [done|]. by rewrite toLowerChar_idemp, IH. Qed.

Lemma trimStart_toLowerCase (s : string) :
  trimStart (toLowerCase s) = toLowerCase (trimStart s).
Proof.
  induction s as [|c s IH]; simpl; [done|].
  rewrite isWhiteSpace_toLowerChar. by destruct (isWhiteSpace c).
Qed.

Lemma trimEnd_toLowerCase (s : string) :
  trimEnd (toLowerCase s) = toLowerCase (trimEnd s).
Proof.
  induction s as [|c s IH]; simpl; [done|].
  rewrite IH, isWhiteSpace_toLowerChar.
  destruct (trimEnd s); simpl; [by destruct (isWhiteSpace c) | done].
Qed.

Lemma trim_toLowerCase (s : string) : trim (toLowerCase s) = toLowerCase (trim s).
Proof. unfold trim. by rewrite trimStart_toLowerCase, trimEnd_toLowerCase. Qed.

Lemma trimStart_startsClean (s : string) : startsClean (trimStart s).
Proof.
  induction s as [|c s IH]; simpl; [done|].
  by destruct (isWhiteSpace c) eqn:E.
Qed.

Lemma startsClean_trimStart (s : string) : startsClean s → trimStart s = s.
Proof. destruct s as [|c s]; simpl; [done|]. by intros ->. Qed.

Lemma trimEnd_startsClean (s : string) : startsClean s → startsClean (trimEnd s).
Proof.
  destruct s as [|c s]; simpl; [done|]. intros Hc.
  destruct (trimEnd s); simpl; [by rewrite Hc | done].
Qed.

Lemma trimEnd_idemp (s : string) : trimEnd (trimEnd s) = trimEnd s.
Proof.
  induction s as [|c s IH]; simpl; [done|].
  destruct (trimEnd s) as [|d r] eqn:E.
  - destruct (isWhiteSpace c) eqn:Ec; simpl; [done | by rewrite Ec].
  - change (trimEnd (String c (String d r))) with
      (match trimEnd (String d r) with
       | EmptyString => if isWhiteSpace c then EmptyString else String c EmptyString
       | r' => String c r'
       end).
    by rewrite IH.
Qed.

Lemma trim_idemp (s : string) : trim (trim s) = trim s.
Proof.
  unfold trim.
  rewrite (startsClean_trimStart (trimEnd (trimStart s))).
  - apply trimEnd_idemp.
  - apply trimEnd_startsClean, trimStart_startsClean.
Qed.

End StringFacts.

Example toLowerCase_mixed : toLowerCase "Sales LEVEL 6 (Ab-9)" = "sales level 6 (ab-9)".
Proof. reflexivity. Qed.

Example trim_both_ends : trim "  SDR Name  " = "SDR Name" ∧ trim "   " = "".
Proof. split; reflexivity. Qed.

Example includes_cases :
  includes "west-1" "west" = true ∧ includes "east-9" "west" = false
  ∧ includes "west" "" = true ∧ includes "" "w" = false.
Proof. repeat split; reflexivity. Qed.

Example js_String_cases :
  js_String (VNumber 42) = "42" ∧ js_String (VNumber (-7)) = "-7"
  ∧ js_String (VBoolean true) = "true" ∧ js_String VUndefined = "undefined".
Proof. repeat split; reflexivity. Qed.

Example truthy_cases :
  truthy (VString "") = false ∧ truthy (VNumber 0) = false
  ∧ truthy VUndefined = false ∧ truthy (VString "0") = true.
Proof. repeat split; reflexivity. Qed.

(** ** Header cleaning and routing *)

Lemma cleanedKey_idemp (key : string) : cleanedKey (cleanedKey key) = cleanedKey key.
Proof.
  unfold cleanedKey.
  by rewrite <- trim_toLowerCase, toLowerCase_idemp, trim_toLowerCase, trim_idemp.
Qed.

Lemma cleanedKey_lower (key : string) : toLowerCase (cleanedKey key) = cleanedKey key.
Proof. apply toLowerCase_idemp. Qed.

(** A cleaned header is never one of the two camel-case property names. *)
Lemma cleanedKey_not_salesLevel6 (key : string) : cleanedKey key ≠ "salesLevel6".
Proof. intros E. pose proof (cleanedKey_lower key) as H. rewrite E in H. discriminate. Qed.

Lemma cleanedKey_not_sdrName (key : string) : cleanedKey key ≠ "sdrName".
Proof. intros E. pose proof (cleanedKey_lower key) as H. rewrite E in H. discriminate. Qed.

Lemma setProp_insert (m : gmap string value) (k : string) (v : value) :
  k ≠ "__proto__" → setProp m k v = <[k := v]> m.
Proof. unfold setProp. by destruct (String.eqb_spec k "__proto__"). Qed.

Lemma setProp_proto (m : gmap string value) (v : value) : setProp m "__proto__" v = m.
Proof. reflexivity. Qed.

Lemma lookup_setProp (m : gmap string value) (k f : string) (v : value) :
  f ≠ "__proto__" →
  setProp m k v !! f = if decide (k = f) then Some v else m !! f.
Proof.
  intros Hf. unfold setProp. destruct (String.eqb_spec k "__proto__") as [-> | Hk].
  - by rewrite decide_False.
  - apply lookup_insert.
Qed.

Lemma lookup_setProp_proto (m : gmap string value) (k : string) (v : value) :
  setProp m k v !! "__proto__" = m !! "__proto__".
Proof.
  unfold setProp. destruct (String.eqb_spec k "__proto__") as [-> | Hk]; [done|].
  by rewrite lookup_insert_ne.
Qed.

Lemma assign_headerField (newRow : gmap string value) (key : string) (v : value) :
  assign newRow (key, v) = setProp newRow (headerField key) v.
Proof.
  unfold assign, headerField; simpl.
  by repeat destruct (includes _ _).
Qed.

Lemma headerField_salesLevel6 (key : string) :
  headerField key = "salesLevel6" ↔ includes (cleanedKey key) "sales level 6" = true.
Proof.
  unfold headerField; simpl.
  destruct (includes (cleanedKey key) "sales level 6"); [done|].
  destruct (includes (cleanedKey key) "sdr"); [done|].
  split; [|done]. intros E. by apply cleanedKey_not_salesLevel6 in E.
Qed.

Lemma headerField_sdrName (key : string) :
  headerField key = "sdrName" ↔
  includes (cleanedKey key) "sales level 6" = false ∧ includes (cleanedKey key) "sdr" = true.
Proof.
  unfold headerField; simpl.
  destruct (includes (cleanedKey key) "sales level 6").
  { split; [done | by intros [? _]]. }
  destruct (includes (cleanedKey key) "sdr"); [done|].
  split; [|by intros [_ ?]]. intros E. by apply cleanedKey_not_sdrName in E.
Qed.

(** C3.  The loop body cleans the header by trimming and lowercasing it.
    If the cleaned header contains "sales level 6" the cell is stored as the
    territory key ([salesLevel6]); otherwise, if it contains "sdr", as the
    owner name ([sdrName]); otherwise the cell is assigned under the
    cleaned header, which keeps it as a passthrough field for every cleaned
    header but one: under [__proto__] the assignment stores nothing, so a
    header such as "__PROTO__" is not kept and the projected record has no
    such field.  A header containing both substrings, such as
    "Sales Level 6 SDR", is a territory key. *)
Theorem header_routing (key : string) (v : value) (newRow : gmap string value) :
  let cleaned := toLowerCase (trim key) in
  ( (substring_of "sales level 6" cleaned
     ∧ assign newRow (key, v) = <["salesLevel6" := v]> newRow)
    ∨ (¬ substring_of "sales level 6" cleaned ∧ substring_of "sdr" cleaned
       ∧ assign newRow (key, v) = <["sdrName" := v]> newRow)
    ∨ (¬ substring_of "sales level 6" cleaned ∧ ¬ substring_of "sdr" cleaned
       ∧ cleaned ≠ "__proto__"
       ∧ assign newRow (key, v) = <[cleaned := v]> newRow)
    ∨ (¬ substring_of "sales level 6" cleaned ∧ ¬ substring_of "sdr" cleaned
       ∧ cleaned = "__proto__"
       ∧ assign newRow (key, v) = newRow) )
  ∧ substring_of "sales level 6" (toLowerCase (trim "Sales Level 6 SDR"))
  ∧ substring_of "sdr" (toLowerCase (trim "Sales Level 6 SDR"))
  ∧ assign newRow ("Sales Level 6 SDR", v) = <["salesLevel6" := v]> newRow
  ∧ toLowerCase (trim "__PROTO__") = "__proto__"
  ∧ assign newRow ("__PROTO__", v) = newRow
  ∧ projectRow [("__PROTO__", v)] !! "__proto__" = None.
Proof.
  intros cleaned. split; [|split_and!].
  - unfold assign, cleanedKey; simpl. fold cleaned.
    destruct (includes cleaned "sales level 6") eqn:E1.
    { left. split; [by apply includes_spec | done]. }
    assert (¬ substring_of "sales level 6" cleaned) as N1.
    { intros H%includes_spec. congruence. }
    destruct (includes cleaned "sdr") eqn:E2.
    { right; left. split_and!; [done | by apply includes_spec | done]. }
    assert (¬ substring_of "sdr" cleaned) as N2.
    { intros H%includes_spec. congruence. }
    right; right. destruct (decide (cleaned = "__proto__")) as [E | N].
    + right. split_and!; [done..|]. by rewrite E.
    + left. split_and!; [done..|]. by apply setProp_insert.
  - by apply includes_spec.
  - by apply includes_spec.
  - reflexivity.
  - reflexivity.
  - reflexivity.
  - reflexivity.
Qed.

(** ** The record projector *)

Lemma foldl_assign_lookup (row : rawRow) (m : gmap string value) (f : string) :
  f ≠ "__proto__" →
  foldl assign m row !! f =
  match last (filter (λ kv : string * value, headerField kv.1 = f) row) with
  | Some kv => Some kv.2
  | None => m !! f
  end.
Proof.
  intros Hf. induction row as [|[k v] row IH] using rev_ind; [done|].
  rewrite foldl_snoc, assign_headerField, filter_app, lookup_setProp by done.
  destruct (decide (headerField k = f)) as [E|N].
  - rewrite filter_cons_True by exact E. by rewrite filter_nil, last_snoc.
  - rewrite filter_cons_False by exact N. rewrite filter_nil, app_nil_r.
    apply IH.
Qed.

(** No header ever gives the record an own property [__proto__]. *)
Lemma foldl_assign_proto (row : rawRow) (m : gmap string value) :
  foldl assign m row !! "__proto__" = m !! "__proto__".
Proof.
  induction row as [|[k v] row IH] using rev_ind; [done|].
  by rewrite foldl_snoc, assign_headerField, lookup_setProp_proto.
Qed.

(** C10.  Within one raw row, the value found under a property of the
    projected record is the cell of the last header, in key order, that is
    routed to that property; so when several headers collide on
    [sdrName], on [salesLevel6] or on one passthrough key, the last one
    overwrites the earlier ones.  The one key for which this fails is
    [__proto__]: headers that clean to it, such as "__PROTO__" and
    " __proto__ ", store nothing, so the record holds neither the last
    value nor any other. *)
Theorem last_header_wins (row : rawRow) (f : string) :
  ( (f ≠ "__proto__"
     ∧ projectRow row !! f =
         snd <$> last (filter (λ kv : string * value, headerField kv.1 = f) row))
    ∨ (f = "__proto__" ∧ projectRow row !! f = None) )
  ∧ projectRow [("SDR", VString "Alice"); ("SDR Name", VString "Bob")] !! "sdrName"
    = Some (VString "Bob")
  ∧ projectRow [("Region", VString "North"); (" region ", VString "South")] !! "region"
    = Some (VString "South")
  ∧ headerField "__PROTO__" = "__proto__"
  ∧ headerField " __proto__ " = "__proto__"
  ∧ projectRow [("__PROTO__", VString "North"); (" __proto__ ", VString "South")]
      !! "__proto__" = None.
Proof.
  split_and!; [|reflexivity..].
  unfold projectRow. destruct (decide (f = "__proto__")) as [-> | Hf].
  - right. split; [done|]. by rewrite foldl_assign_proto.
  - left. split; [done|]. rewrite foldl_assign_lookup, lookup_empty by done.
    by destruct (last _).
Qed.

Lemma truthy_not_undefined (v : value) : truthy v = true → v ≠ VUndefined.
Proof. by intros H ->. Qed.

Lemma truthy_not_empty (v : value) : truthy v = true → v ≠ VString "".
Proof. by intros H ->. Qed.

Lemma elem_of_processedData (json : list rawRow) (r : gmap string value) :
  r ∈ processedData json ↔
  hasBothFields r = true ∧ ∃ row, row ∈ json ∧ r = projectRow row.
Proof.
  unfold processedData. rewrite list_elem_of_filter, list_elem_of_fmap, Is_true_true.
  split.
  - intros [H (row & -> & Hin)]. split; [done|]. by exists row.
  - intros [H (row & Hin & ->)]. split; [done|]. by exists row.
Qed.

(** C2.  Every record kept by the projector has a truthy territory key and
    a truthy owner name (in particular neither is absent nor the empty
    string); there are at most as many records as raw rows, and they come
    in the order of the rows they were projected from. *)
Theorem projection_invariant (json : list rawRow) :
  Forall (λ r, truthy (prop r "salesLevel6") = true
               ∧ truthy (prop r "sdrName") = true
               ∧ prop r "salesLevel6" ≠ VUndefined ∧ prop r "salesLevel6" ≠ VString ""
               ∧ prop r "sdrName" ≠ VUndefined ∧ prop r "sdrName" ≠ VString "")
         (processedData json)
  ∧ length (processedData json) ≤ length json
  ∧ processedData json `sublist_of` (projectRow <$> json).
Proof.
  split_and!.
  - apply Forall_forall. intros r [Hr _]%elem_of_processedData.
    unfold hasBothFields in Hr. apply andb_true_iff in Hr as [H1 H2].
    split_and!; auto using truthy_not_undefined, truthy_not_empty.
  - unfold processedData.
    etrans; [apply length_filter|]. by rewrite length_fmap.
  - apply sublist_filter.
Qed.

(** C4, as stated, fails: a numeric cell is stored as a number.  The row
    [{"Sales Level 6": 42, "SDR": "Alice"}] is kept and its territory key
    is the number 42, not a string. *)
Lemma stored_key_not_coerced :
  let json : list rawRow := [ [("Sales Level 6", VNumber 42); ("SDR", VString "Alice")] ] in
  ∃ r, r ∈ processedData json
       ∧ prop r "salesLevel6" = VNumber 42
       ∧ ¬ (isString (prop r "salesLevel6") ∧ isString (prop r "sdrName")).
Proof.
  intros json. exists (projectRow [("Sales Level 6", VNumber 42); ("SDR", VString "Alice")]).
  split_and!.
  - apply elem_of_processedData. split; [reflexivity|].
    eexists. split; [apply list_elem_of_here | reflexivity].
  - reflexivity.
  - by intros [H _].
Qed.

(** C4, amended.  For every raw row kept by the projector, the stored
    territory key and owner name are cells of that row, unchanged: the key
    is the cell of a header whose cleaned form contains "sales level 6",
    the owner that of a header whose cleaned form contains "sdr" and not
    "sales level 6".  Nothing is coerced on storage, so a string cell keeps
    its casing and a number stays a number; the lookup displays the stored
    values and applies [String] only to compute the lowercased key. *)
Theorem stored_values_verbatim (json : list rawRow) (r : gmap string value) :
  r ∈ processedData json →
  ∃ row k1 v1 k2 v2,
    row ∈ json ∧ r = projectRow row
    ∧ (k1, v1) ∈ row ∧ includes (cleanedKey k1) "sales level 6" = true
    ∧ (k2, v2) ∈ row ∧ includes (cleanedKey k2) "sales level 6" = false
    ∧ includes (cleanedKey k2) "sdr" = true
    ∧ prop r "salesLevel6" = v1 ∧ prop r "sdrName" = v2
    ∧ resultOf r = {| salesLevel6 := v1; sdrName := v2 |}
    ∧ salesLevel6Key r = toLowerCase (js_String v1).
Proof.
  intros (Hr & row & Hrow & ->)%elem_of_processedData.
  unfold hasBothFields in Hr. apply andb_true_iff in Hr as [H1 H2].
  unfold resultOf, salesLevel6Key, prop, projectRow in *.
  rewrite foldl_assign_lookup, lookup_empty in H1 by done.
  rewrite foldl_assign_lookup, lookup_empty in H2 by done.
  rewrite !foldl_assign_lookup, !lookup_empty by done.
  destruct (last (filter (λ kv : string * value, headerField kv.1 = "salesLevel6") row))
    as [[k1 v1]|] eqn:E1; [|done].
  destruct (last (filter (λ kv : string * value, headerField kv.1 = "sdrName") row))
    as [[k2 v2]|] eqn:E2; [|done].
  apply last_Some_elem_of, list_elem_of_filter in E1 as [F1 I1].
  apply last_Some_elem_of, list_elem_of_filter in E2 as [F2 I2].
  simpl in F1, F2.
  apply headerField_salesLevel6 in F1. apply headerField_sdrName in F2 as [F2 F3].
  exists row, k1, v1, k2, v2. by split_and!.
Qed.

Lemma stored_values_verbatim_witness :
  let row : rawRow := [("Sales Level 6", VNumber 42); ("SDR", VString "Alice")] in
  projectRow row ∈ processedData [row] ∧
  ∃ row' k1 v1 k2 v2,
    row' ∈ [row] ∧ projectRow row = projectRow row'
    ∧ (k1, v1) ∈ row' ∧ includes (cleanedKey k1) "sales level 6" = true
    ∧ (k2, v2) ∈ row' ∧ includes (cleanedKey k2) "sales level 6" = false
    ∧ includes (cleanedKey k2) "sdr" = true
    ∧ prop (projectRow row) "salesLevel6" = v1 ∧ prop (projectRow row) "sdrName" = v2
    ∧ resultOf (projectRow row) = {| salesLevel6 := v1; sdrName := v2 |}
    ∧ salesLevel6Key (projectRow row) = toLowerCase (js_String v1).
Proof.
  intros row.
  assert (projectRow row ∈ processedData [row]) as Hin.
  { apply elem_of_processedData. split; [reflexivity|].
    exists row. split; [apply list_elem_of_here | reflexivity]. }
  split; [exact Hin | exact (stored_values_verbatim [row] (projectRow row) Hin)].
Defined.

(** ** The lookup *)

Lemma filter_ext_elem {A} (P Q : A → Prop) `{∀ x, Decision (P x)} `{∀ x, Decision (Q x)}
    (l : list A) :
  (∀ x, x ∈ l → P x ↔ Q x) → filter P l = filter Q l.
Proof.
  induction l as [|a l IH]; intros Hext; [done|].
  rewrite !filter_cons.
  assert (filter P l = filter Q l) as ->.
  { apply IH. intros x Hx. apply Hext. by right. }
  pose proof (Hext a (list_elem_of_here _ _)) as Ha.
  destruct (decide (P a)), (decide (Q a)); tauto.
Qed.

Lemma mapHas_spec (m : resultsMap) (k : string) : mapHas m k = true ↔ k ∈ m.*1.
Proof.
  unfold mapHas. rewrite existsb_exists, list_elem_of_fmap. split.
  - intros ([k' r] & Hin & Heq). apply String.eqb_eq in Heq. simpl in Heq. subst k'.
    exists (k, r). split; [done | by apply list_elem_of_In].
  - intros ([k' r] & -> & Hin). exists (k', r).
    split; [by apply list_elem_of_In | apply String.eqb_refl].
Qed.

Lemma mapHas_false (m : resultsMap) (k : string) : mapHas m k = false ↔ k ∉ m.*1.
Proof. rewrite <- mapHas_spec. by destruct (mapHas m k). Qed.

(** The keys of the map after the walk: those of the matching rows. *)
Lemma foldl_visit_keys (term : string) (l : list (gmap string value)) (k : string) :
  k ∈ (foldl (visit term) [] l).*1 ↔
  ∃ row, row ∈ l ∧ rowMatches term row = true ∧ salesLevel6Key row = k.
Proof.
  induction l as [|x l IH] using rev_ind.
  - simpl. split; [by intros ?%elem_of_nil | by intros (? & ?%elem_of_nil & _)].
  - rewrite foldl_snoc. unfold visit at 1.
    assert ((∃ row, row ∈ l ++ [x] ∧ rowMatches term row = true ∧ salesLevel6Key row = k)
            ↔ (k ∈ (foldl (visit term) [] l).*1
               ∨ (rowMatches term x = true ∧ salesLevel6Key x = k))) as ->.
    { rewrite IH. split.
      - intros (row & [Hin | ->%list_elem_of_singleton]%elem_of_app & Hm & Hk).
        + left. by exists row.
        + by right.
      - intros [(row & Hin & Hm & Hk) | [Hm Hk]].
        + exists row. split_and!; [apply elem_of_app; by left | done..].
        + exists x. split_and!; [apply elem_of_app; right; apply list_elem_of_here | done..]. }
    destruct (rowMatches term x) eqn:Ex.
    + destruct (mapHas _ (salesLevel6Key x)) eqn:Eh; simpl.
      * apply mapHas_spec in Eh. split; [by left|].
        intros [?|[_ <-]]; done.
      * unfold mapSetFresh. rewrite fmap_app, elem_of_app. simpl.
        rewrite list_elem_of_singleton. split.
        -- intros [?| ->]; [by left | by right].
        -- intros [?|[_ <-]]; [by left | by right].
    + split; [by left | by intros [?|[? _]]].
Qed.

Lemma foldl_visit_NoDup (term : string) (l : list (gmap string value)) :
  NoDup (foldl (visit term) [] l).*1.
Proof.
  induction l as [|x l IH] using rev_ind; [constructor|].
  rewrite foldl_snoc. unfold visit at 1.
  destruct (rowMatches term x); [|done].
  destruct (mapHas _ (salesLevel6Key x)) eqn:Eh; simpl; [done|].
  apply mapHas_false in Eh.
  unfold mapSetFresh. rewrite fmap_app. apply NoDup_app. split_and!; [done| |].
  - intros k Hk ->%list_elem_of_singleton. done.
  - apply NoDup_singleton.
Qed.

(** No earlier matching row with the key of [x]: the map does not hold it. *)
Lemma noEarlier_mapHas (term : string) (l : list (gmap string value))
    (x : gmap string value) :
  forallb (λ row', negb (rowMatches term row'
                         && String.eqb (salesLevel6Key row') (salesLevel6Key x))) l
  = negb (mapHas (foldl (visit term) [] l) (salesLevel6Key x)).
Proof.
  apply eq_true_iff_eq.
  rewrite forallb_forall, negb_true_iff, mapHas_false, foldl_visit_keys. split.
  - intros Hall (row & Hin & Hm & Hk).
    specialize (Hall row (proj1 (list_elem_of_In _ _) Hin)).
    rewrite Hm, Hk, String.eqb_refl in Hall. discriminate.
  - intros Hnone row Hin. apply negb_true_iff, not_true_iff_false.
    intros [Hm Hk%String.eqb_eq]%andb_true_iff.
    apply Hnone. exists row. split_and!; [by apply list_elem_of_In | done..].
Qed.

Lemma firstRows_snoc (term : string) (l : list (gmap string value))
    (x : gmap string value) :
  firstRows term (l ++ [x]) =
  firstRows term l ++
    (if rowMatches term x && negb (mapHas (foldl (visit term) [] l) (salesLevel6Key x))
     then [x] else []).
Proof.
  unfold firstRows. rewrite imap_app, filter_app, fmap_app. f_equal.
  - f_equal. apply filter_ext_elem. intros [i r] Hin. simpl.
    apply elem_of_lookup_imap in Hin as (i' & r' & [= -> ->] & Hl).
    apply lookup_lt_Some in Hl.
    unfold isFirstMatch. by rewrite take_app_le by lia.
  - simpl. rewrite filter_cons, filter_nil. simpl.
    rewrite Nat.add_0_r. unfold isFirstMatch.
    rewrite take_app_length, noEarlier_mapHas.
    destruct (rowMatches term x && _); by case_decide.
Qed.

(** The walk over the rows builds exactly the first-wins map. *)
Lemma foldl_visit_firstRows (term : string) (l : list (gmap string value)) :
  foldl (visit term) [] l =
  (λ row, (salesLevel6Key row, resultOf row)) <$> firstRows term l.
Proof.
  induction l as [|x l IH] using rev_ind; [done|].
  rewrite foldl_snoc, firstRows_snoc, fmap_app, <- IH. unfold visit.
  destruct (rowMatches term x); simpl; [|by rewrite app_nil_r].
  destruct (mapHas _ _); simpl; [by rewrite app_nil_r | done].
Qed.

Lemma searchResults_firstWins (term : string) (data : list (gmap string value)) :
  searchResults term data = firstWins term data.
Proof.
  unfold searchResults, firstWins, mapValues.
  rewrite foldl_visit_firstRows, <- list_fmap_compose. done.
Qed.

Lemma searchResults_keys (term : string) (data : list (gmap string value)) :
  dedupKey <$> searchResults term data = (foldl (visit term) [] data).*1.
Proof.
  unfold searchResults, mapValues.
  rewrite foldl_visit_firstRows, <- !list_fmap_compose. done.
Qed.

Lemma elem_of_firstRows (term : string) (data : list (gmap string value))
    (row : gmap string value) :
  row ∈ firstRows term data ↔ ∃ i, data !! i = Some row ∧ isFirstMatch term data i row = true.
Proof.
  unfold firstRows. rewrite list_elem_of_fmap. split.
  - intros ([i r] & -> & [Hf Hin]%list_elem_of_filter). simpl in *.
    apply elem_of_lookup_imap in Hin as (i' & r' & [= -> ->] & Hl).
    exists i'. split; [done | by apply Is_true_true].
  - intros (i & Hl & Hf). exists (i, row). split; [done|].
    apply list_elem_of_filter. split; [by apply Is_true_true|].
    apply elem_of_lookup_imap. by exists i, row.
Qed.

Lemma isFirstMatch_spec (term : string) (data : list (gmap string value))
    (i : nat) (row : gmap string value) :
  isFirstMatch term data i row = true →
  rowMatches term row = true
  ∧ ∀ j row', j < i → data !! j = Some row' → rowMatches term row' = true →
              salesLevel6Key row' ≠ salesLevel6Key row.
Proof.
  unfold isFirstMatch. intros [Hm Hall]%andb_true_iff. split; [done|].
  intros j row' Hj Hl Hm' Hk.
  rewrite forallb_forall in Hall.
  assert (row' ∈ take i data) as Hin.
  { apply list_elem_of_lookup. exists j. by rewrite lookup_take_lt. }
  specialize (Hall row' (proj1 (list_elem_of_In _ _) Hin)).
  rewrite Hm', Hk, String.eqb_refl in Hall. discriminate.
Qed.

Lemma handleSearchChange_results (term : string) (st : state) :
  term ≠ "" →
  filteredResults (handleSearchChange term st) = searchResults term (excelData st).
Proof.
  intros Hterm. unfold handleSearchChange.
  destruct term as [|c term]; [done|]. simpl.
  destruct (excelData st); reflexivity.
Qed.

(** C1.  For a non-empty query the lookup returns at most one result per
    lowercased territory key; the results are those of the rows that match
    the query and have no earlier matching row with the same lowercased
    key, in the order of those rows, each carrying the key and the owner
    of its row; every matching row is represented by the result of its
    key.  For the three rows of scenario A all three records are kept and
    the query "west" returns the single result (West-1, Alice). *)
Theorem first_wins_lookup (st : state) (term : string) :
  term ≠ "" →
  let results := filteredResults (handleSearchChange term st) in
  NoDup (dedupKey <$> results)
  ∧ results = firstWins term (excelData st)
  ∧ (∀ r, r ∈ results →
       ∃ i row, excelData st !! i = Some row ∧ rowMatches term row = true
                ∧ r = resultOf row
                ∧ ∀ j row', j < i → excelData st !! j = Some row' →
                            rowMatches term row' = true →
                            salesLevel6Key row' ≠ salesLevel6Key row)
  ∧ (∀ row, row ∈ excelData st → rowMatches term row = true →
       ∃ r, r ∈ results ∧ dedupKey r = salesLevel6Key row)
  ∧ length (processedData scenarioA) = 3
  ∧ filteredResults (handleSearchChange "west" loadedA) = scenarioA_result.
Proof.
  intros Hterm results. subst results.
  rewrite handleSearchChange_results by done.
  split_and!.
  - rewrite searchResults_keys. apply foldl_visit_NoDup.
  - apply searchResults_firstWins.
  - intros r. rewrite searchResults_firstWins. unfold firstWins.
    intros (row & -> & (i & Hl & Hf)%elem_of_firstRows)%list_elem_of_fmap.
    apply isFirstMatch_spec in Hf as [Hm Hfirst].
    by exists i, row.
  - intros row Hin Hm.
    assert (salesLevel6Key row ∈ dedupKey <$> searchResults term (excelData st)) as Hk.
    { rewrite searchResults_keys. apply foldl_visit_keys. by exists row. }
    apply list_elem_of_fmap in Hk as (r & Hr & Hin'). by exists r.
  - reflexivity.
  - reflexivity.
Qed.

Lemma first_wins_lookup_witness :
  "west" ≠ "" ∧
  let results := filteredResults (handleSearchChange "west" loadedA) in
  NoDup (dedupKey <$> results)
  ∧ results = firstWins "west" (excelData loadedA)
  ∧ (∀ r, r ∈ results →
       ∃ i row, excelData loadedA !! i = Some row ∧ rowMatches "west" row = true
                ∧ r = resultOf row
                ∧ ∀ j row', j < i → excelData loadedA !! j = Some row' →
                            rowMatches "west" row' = true →
                            salesLevel6Key row' ≠ salesLevel6Key row)
  ∧ (∀ row, row ∈ excelData loadedA → rowMatches "west" row = true →
       ∃ r, r ∈ results ∧ dedupKey r = salesLevel6Key row)
  ∧ length (processedData scenarioA) = 3
  ∧ filteredResults (handleSearchChange "west" loadedA) = scenarioA_result.
Proof.
  split; [discriminate|]. apply (first_wins_lookup loadedA "west"). discriminate.
Defined.

Lemma length_foldl_visit (term : string) (l : list (gmap string value)) (m : resultsMap) :
  length (foldl (visit term) m l) ≤ length m + length (filter (λ row, rowMatches term row) l).
Proof.
  revert m. induction l as [|x l IH]; intros m; simpl; [lia|].
  etrans; [apply IH|]. rewrite filter_cons. unfold visit.
  destruct (rowMatches term x); simpl; [|lia].
  destruct (mapHas m _); simpl; [lia|].
  unfold mapSetFresh. rewrite length_app. simpl. lia.
Qed.

Lemma canonical_rowMatches (term : string) (row : gmap string value) :
  hasBothFields row = true →
  rowMatches term row = includes (salesLevel6Key row) (toLowerCase term).
Proof.
  unfold hasBothFields, rowMatches, salesLevel6Key.
  intros [-> _]%andb_true_iff. done.
Qed.

(** C5.  On a canonical record set and for a non-empty query, the result
    is empty exactly when no record's lowercased territory key contains
    the lowercased query; there are at most as many results as records
    whose lowercased key contains it.  The lookup is a total function, so
    a query without match, such as "zzz" on scenario A, gives the empty
    sequence. *)
Theorem empty_iff_no_match (st : state) (term : string) :
  term ≠ "" →
  canonical (excelData st) →
  let results := filteredResults (handleSearchChange term st) in
  (results = [] ↔
     ∀ row, row ∈ excelData st → ¬ substring_of (toLowerCase term) (salesLevel6Key row))
  ∧ length results
    ≤ length (filter (λ row, includes (salesLevel6Key row) (toLowerCase term)) (excelData st))
  ∧ excelData loadedA ≠ []
  ∧ filteredResults (handleSearchChange "zzz" loadedA) = [].
Proof.
  intros Hterm Hcan results. subst results.
  rewrite handleSearchChange_results by done.
  unfold canonical in Hcan. rewrite Forall_forall in Hcan.
  split_and!.
  - split.
    + intros Hnil row Hin Hsub%includes_spec.
      assert (salesLevel6Key row ∈ dedupKey <$> searchResults term (excelData st)) as Hk.
      { rewrite searchResults_keys. apply foldl_visit_keys. exists row.
        split_and!; [done| |done]. by rewrite canonical_rowMatches by auto. }
      rewrite Hnil in Hk. by apply elem_of_nil in Hk.
    + intros Hnone.
      destruct (searchResults term (excelData st)) as [|r rs] eqn:E; [done|].
      assert (dedupKey r ∈ (foldl (visit term) [] (excelData st)).*1) as Hk.
      { rewrite <- searchResults_keys, E. apply list_elem_of_here. }
      apply foldl_visit_keys in Hk as (row & Hin & Hm & _).
      rewrite canonical_rowMatches in Hm by auto.
      apply includes_spec in Hm. by destruct (Hnone row Hin).
  - unfold searchResults, mapValues. rewrite length_fmap.
    etrans; [apply length_foldl_visit|]. simpl.
    rewrite (filter_ext_elem (λ row, rowMatches term row)
               (λ row, includes (salesLevel6Key row) (toLowerCase term))); [done|].
    intros row Hin. by rewrite canonical_rowMatches by auto.
  - discriminate.
  - reflexivity.
Qed.

Lemma empty_iff_no_match_witness :
  "zzz" ≠ "" ∧ canonical (excelData loadedA) ∧
  let results := filteredResults (handleSearchChange "zzz" loadedA) in
  (results = [] ↔
     ∀ row, row ∈ excelData loadedA → ¬ substring_of (toLowerCase "zzz") (salesLevel6Key row))
  ∧ length results
    ≤ length (filter (λ row, includes (salesLevel6Key row) (toLowerCase "zzz"))
                (excelData loadedA))
  ∧ excelData loadedA ≠ []
  ∧ filteredResults (handleSearchChange "zzz" loadedA) = [].
Proof.
  assert (canonical (excelData loadedA)) as Hcan.
  { repeat constructor. }
  split_and!; [discriminate | exact Hcan |].
  apply (empty_iff_no_match loadedA "zzz"); [discriminate | exact Hcan].
Defined.

(** C8.  Whatever the record set, typing the empty query leaves no
    results. *)
Theorem empty_query (st : state) :
  filteredResults (handleSearchChange "" st) = []
  ∧ searchTerm (handleSearchChange "" st) = ""
  ∧ excelData (handleSearchChange "" st) = excelData st.
Proof. unfold handleSearchChange. simpl. done. Qed.

(** ** Ingestion *)

Lemma processedData_canonical (json : list rawRow) : canonical (processedData json).
Proof. apply Forall_forall. by intros r [Hr _]%elem_of_processedData. Qed.

Lemma step_canonical (st : state) (ev : event) :
  canonical (excelData st) → canonical (excelData (step st ev)).
Proof.
  intros Hcan. destruct ev as [| |[f|]|fileName [|json]|term| |]; simpl; try done.
  - by destruct (negb (isXLSXLoaded st)).
  - constructor.
  - constructor.
  - unfold onload. destruct (0 <? length (processedData json)); simpl.
    + apply processedData_canonical.
    + constructor.
  - unfold handleSearchChange. by destruct (_ && _).
  - constructor.
Qed.

(** Every record set the component ever holds is canonical. *)
Lemma run_canonical (evs : list event) : canonical (excelData (run evs)).
Proof.
  unfold run. induction evs as [|ev evs IH] using rev_ind; [constructor|].
  rewrite foldl_snoc. by apply step_canonical.
Qed.

(** C6.  When the parser returns, the rows are projected and the outcome
    depends on the projected set only: if it is not empty it becomes the
    record set and the message reports its size (loaded); if it is empty
    the record set is emptied and the message reports that no valid data
    was found.  The row [{Region: West-1, Owner: Alice}] has no header
    containing a required substring, projects to the empty set and gives
    the no-valid-data outcome. *)
Theorem ingestion_outcome (fileName : string) (json : list rawRow) (st : state) :
  let st' := onload fileName (ParserReturned json) st in
  let data := processedData json in
  ( (data ≠ [] ∧ excelData st' = data ∧ msg st' = MsgLoaded (length data) fileName)
    ∨ (data = [] ∧ excelData st' = [] ∧ msg st' = MsgNoValidData) )
  ∧ processedData scenarioB = []
  ∧ excelData (onload fileName (ParserReturned scenarioB) st) = []
  ∧ msg (onload fileName (ParserReturned scenarioB) st) = MsgNoValidData
  ∧ msg (upload fileName (ParserReturned scenarioB) readyState) = MsgNoValidData.
Proof.
  intros st' data. subst st' data. split_and!; try reflexivity.
  unfold onload. destruct (processedData json) as [|r rs] eqn:E; simpl.
  - right. done.
  - left. done.
Qed.

(** C9.  A failed ingestion (the parser threw, or no row survived the
    projection) empties the record set and leaves the displayed results as
    they were; a successful one installs the new record set and clears the
    results.  After scenario A is loaded and "west" searched, a failed
    upload leaves the result (West-1, Alice) on display over an empty
    record set. *)
Theorem failed_ingestion_keeps_results (fileName : string) (p : parsed) (st : state) :
  let st' := onload fileName p st in
  ( ((p = ParserThrew ∨ ∃ json, p = ParserReturned json ∧ processedData json = [])
     ∧ excelData st' = [] ∧ filteredResults st' = filteredResults st)
    ∨ (∃ json, p = ParserReturned json ∧ processedData json ≠ []
               ∧ excelData st' = processedData json ∧ filteredResults st' = []) )
  ∧ filteredResults searchedA = scenarioA_result
  ∧ excelData (upload fileName ParserThrew searchedA) = []
  ∧ filteredResults (upload fileName ParserThrew searchedA) = scenarioA_result
  ∧ excelData (upload fileName (ParserReturned scenarioB) searchedA) = []
  ∧ filteredResults (upload fileName (ParserReturned scenarioB) searchedA) = scenarioA_result
  ∧ filteredResults (upload fileName (ParserReturned scenarioA) searchedA) = [].
Proof.
  intros st'. subst st'. split_and!; try reflexivity.
  destruct p as [|json]; simpl.
  - left. split_and!; [by left | done..].
  - destruct (processedData json) as [|r rs] eqn:E; simpl.
    + left. split_and!; [right; by exists json | done..].
    + right. exists json. by rewrite E.
Qed.

(** ** Re-normalising a header *)

(** C7, as stated, fails: the property written for a matched territory
    header, [salesLevel6], is itself routed to the passthrough key
    [saleslevel6], not to the territory key again. *)
Lemma renormalised_territory_field_differs :
  headerField "Sales Level 6" = "salesLevel6"
  ∧ headerField (headerField "Sales Level 6") = "saleslevel6"
  ∧ headerField (headerField "Sales Level 6") ≠ headerField "Sales Level 6"
  ∧ assign ∅ ("Sales Level 6", VString "West-1") = {["salesLevel6" := VString "West-1"]}
  ∧ assign ∅ ("salesLevel6", VString "West-1") = {["saleslevel6" := VString "West-1"]}.
Proof. split_and!; [reflexivity.. | discriminate | reflexivity | reflexivity]. Qed.

Lemma headerField_cleanedKey (key : string) : headerField (cleanedKey key) = headerField key.
Proof. unfold headerField. by rewrite cleanedKey_idemp. Qed.

(** C7, amended.  Cleaning a header (trim, lowercase) is idempotent and the
    routing depends on the cleaned header only, so a cleaned header is
    routed like the header it came from; re-normalising the field a header
    was routed to gives that field again whenever it is [sdrName] or a
    passthrough key (for instance "territorykey").  The field
    [salesLevel6] is the exception: it is routed to the passthrough key
    [saleslevel6]; from the second application on the result no longer
    changes. *)
Theorem renormalisation (key : string) :
  cleanedKey (cleanedKey key) = cleanedKey key
  ∧ headerField (cleanedKey key) = headerField key
  ∧ (headerField key = "salesLevel6" ∨ headerField (headerField key) = headerField key)
  ∧ headerField (headerField (headerField key)) = headerField (headerField key)
  ∧ headerField "sdrName" = "sdrName"
  ∧ headerField "territorykey" = "territorykey"
  ∧ headerField "salesLevel6" = "saleslevel6".
Proof.
  assert (headerField key = "salesLevel6"
          ∨ headerField (headerField key) = headerField key) as Hstable.
  { destruct (includes (cleanedKey key) "sales level 6") eqn:E1.
    { left. by apply headerField_salesLevel6. }
    right. destruct (includes (cleanedKey key) "sdr") eqn:E2.
    - assert (headerField key = "sdrName") as -> by by apply headerField_sdrName.
      reflexivity.
    - assert (headerField key = cleanedKey key) as ->.
      { unfold headerField. by rewrite E1, E2. }
      rewrite headerField_cleanedKey. unfold headerField. by rewrite E1, E2. }
  split_and!; try reflexivity.
  - apply cleanedKey_idemp.
  - apply headerField_cleanedKey.
  - exact Hstable.
  - destruct Hstable as [-> | E]; [reflexivity | by rewrite !E].
Qed.

(** * Further properties of the component *)

(** ** More on strings *)




Lemma toLowerCase_empty (s : string) : toLowerCase s = "" ↔ s = "".
Proof. destruct s; simpl; split; done. Qed.


Lemma endsWith_spec (s suffix : string) :
  endsWith s suffix = true ↔ ∃ pre, s = pre +:+ suffix.
Proof.
  induction s as [|c s IH]; cbn [endsWith].
  - rewrite orb_false_r, String.eqb_eq. split.
    + intros <-. by exists "".
    + intros ([|d pre] & Hpre); [done | discriminate].
  - rewrite orb_true_iff, String.eqb_eq, IH. split.
    + intros [<- | [pre ->]]; [by exists "" | by exists (String c pre)].
    + intros ([|d pre] & Hpre); [by left|].
      right. rewrite app_String_l in Hpre. injection Hpre as _ ->. by exists pre.
Qed.

(** ** Laws of the lookup *)






Lemma resultMatches_resultOf (term : string) (row : gmap string value) :
  resultMatches term (resultOf row) = rowMatches term row.
Proof. reflexivity. Qed.




Lemma foldl_visit_extends (term : string) (l : list (gmap string value)) (m : resultsMap) :
  m `prefix_of` foldl (visit term) m l.
Proof.
  revert m. induction l as [|x l IH]; intros m; simpl; [done|].
  etrans; [|apply IH]. unfold visit, mapSetFresh.
  destruct (rowMatches term x); [|done].
  destruct (mapHas m _); simpl; [done | by apply prefix_app_r].
Qed.

(** X6.  Rows added after the existing ones never change, drop or reorder
    the results the existing rows produce: the results of a record set are
    a prefix of the results of any extension of it. *)
Theorem results_stable_under_append (term : string)
    (data more : list (gmap string value)) :
  searchResults term data `prefix_of` searchResults term (data ++ more).
Proof.
  unfold searchResults, mapValues. rewrite foldl_app.
  destruct (foldl_visit_extends term more (foldl (visit term) [] data)) as [k ->].
  rewrite fmap_app. by apply prefix_app_r.
Qed.

Lemma visit_lower (term : string) (m : resultsMap) (row : gmap string value) :
  visit (toLowerCase term) m row = visit term m row.
Proof. unfold visit, rowMatches. by rewrite toLowerCase_idemp. Qed.

Lemma searchResults_lower (term : string) (data : list (gmap string value)) :
  searchResults (toLowerCase term) data = searchResults term data.
Proof.
  unfold searchResults. f_equal. generalize (@nil (string * result)).
  induction data as [|x data IH]; intros m; simpl; [done|].
  by rewrite visit_lower, IH.
Qed.

(** X7.  The lookup ignores the letter case of the query: two queries with
    the same lowercased form give the same results. *)
Theorem query_case_insensitive (st : state) (term1 term2 : string) :
  toLowerCase term1 = toLowerCase term2 →
  filteredResults (handleSearchChange term1 st)
  = filteredResults (handleSearchChange term2 st).
Proof.
  intros Heq.
  destruct (decide (term1 = "")) as [-> | H1].
  { symmetry in Heq. apply (proj1 (toLowerCase_empty term2)) in Heq. by subst. }
  assert (term2 ≠ "") as H2.
  { intros ->. by apply (proj1 (toLowerCase_empty term1)) in Heq. }
  rewrite !handleSearchChange_results by done.
  by rewrite <- (searchResults_lower term1), Heq, searchResults_lower.
Qed.

Lemma query_case_insensitive_witness :
  toLowerCase "WeSt" = toLowerCase "west" ∧
  filteredResults (handleSearchChange "WeSt" loadedA)
  = filteredResults (handleSearchChange "west" loadedA).
Proof.
  split; [reflexivity|]. apply (query_case_insensitive loadedA "WeSt" "west"). reflexivity.
Defined.

(** ** More on the projector *)

Lemma projectRow_lookup_None (row : rawRow) (f : string) :
  Forall (λ kv : string * value, headerField kv.1 ≠ f) row → projectRow row !! f = None.
Proof.
  intros Hrow. unfold projectRow.
  destruct (decide (f = "__proto__")) as [-> | Hf].
  { by rewrite foldl_assign_proto. }
  rewrite foldl_assign_lookup by done.
  assert (filter (λ kv : string * value, headerField kv.1 = f) row = []) as ->.
  { induction Hrow as [|kv row Hkv _ IH]; [done|].
    by rewrite filter_cons_False. }
  apply lookup_empty.
Qed.

Lemma lacksColumn_dropped (f : string) (row : rawRow) :
  f = "salesLevel6" ∨ f = "sdrName" →
  Forall (λ kv : string * value, headerField kv.1 ≠ f) row →
  hasBothFields (projectRow row) = false.
Proof.
  intros Hf Hrow. apply (projectRow_lookup_None row f) in Hrow.
  unfold hasBothFields, prop. destruct Hf as [-> | ->]; rewrite Hrow; simpl; [done|].
  apply andb_false_r.
Qed.

(** X8.  A file in which no header is routed to the territory key, or none
    to the owner name, loses every row: the projection is empty whatever
    the cells hold, and the upload ends with the no-valid-data message. *)
Theorem missing_column_drops_all (fileName : string) (json : list rawRow) (st : state) :
  lacksColumn "salesLevel6" json ∨ lacksColumn "sdrName" json →
  processedData json = []
  ∧ excelData (onload fileName (ParserReturned json) st) = []
  ∧ msg (onload fileName (ParserReturned json) st) = MsgNoValidData.
Proof.
  intros Hlack.
  assert (processedData json = []) as Hnil.
  { assert (∃ f, (f = "salesLevel6" ∨ f = "sdrName") ∧ lacksColumn f json)
      as (f & Hf & Hjson).
    { destruct Hlack; [exists "salesLevel6" | exists "sdrName"]; auto. }
    clear Hlack. unfold processedData.
    induction Hjson as [|row json Hrow _ IH]; [done|].
    rewrite fmap_cons, filter_cons_False; [exact IH|].
    rewrite (lacksColumn_dropped f row Hf Hrow). exact id. }
  unfold onload. by rewrite Hnil.
Qed.

Lemma missing_column_drops_all_witness :
  let json : list rawRow :=
    [ [("Sales Level 6 SDR", VString "West-1"); ("Owner", VString "Alice")] ] in
  (lacksColumn "salesLevel6" json ∨ lacksColumn "sdrName" json)
  ∧ processedData json = []
  ∧ excelData (onload "t.xlsx" (ParserReturned json) loadedA) = []
  ∧ msg (onload "t.xlsx" (ParserReturned json) loadedA) = MsgNoValidData.
Proof.
  intros json.
  assert (lacksColumn "salesLevel6" json ∨ lacksColumn "sdrName" json) as Hlack.
  { right. repeat constructor; vm_compute; discriminate. }
  split; [exact Hlack | exact (missing_column_drops_all "t.xlsx" json loadedA Hlack)].
Defined.

Lemma assign_cleaned (m : gmap string value) (a b : string * value) :
  cleanedKey a.1 = cleanedKey b.1 → a.2 = b.2 → assign m a = assign m b.
Proof. unfold assign. by intros -> ->. Qed.

(** X11.  The projected record depends on the headers only through their
    cleaned form: two rows whose headers differ in letter case or in
    surrounding white space, cell for cell, project to the same record. *)
Theorem projection_ignores_header_spelling (row1 row2 : rawRow) :
  sameCleanedHeaders row1 row2 → projectRow row1 = projectRow row2.
Proof.
  unfold sameCleanedHeaders, projectRow. generalize (∅ : gmap string value).
  intros m H. revert m.
  induction H as [|a b row1 row2 [Hk Hv] _ IH]; intros m; simpl; [done|].
  by rewrite (assign_cleaned m a b Hk Hv), IH.
Qed.

Lemma projection_ignores_header_spelling_witness :
  let row1 : rawRow := [("Sales Level 6", VString "West-1"); ("SDR Name", VString "Alice")] in
  let row2 : rawRow := [("  SALES level 6 ", VString "West-1"); ("sdr name  ", VString "Alice")] in
  sameCleanedHeaders row1 row2 ∧ projectRow row1 = projectRow row2.
Proof.
  intros row1 row2.
  assert (sameCleanedHeaders row1 row2) as H.
  { repeat constructor. }
  split; [exact H | exact (projection_ignores_header_spelling row1 row2 H)].
Defined.

(** ** How the handlers compose *)

Lemma clearFileInput_idemp (fi : option string) :
  clearFileInput (clearFileInput fi) = clearFileInput fi.
Proof. by destruct fi. Qed.

(** X9.  Only the last keystroke counts: a search after another search, or
    after clearing, gives the state the search alone gives.  Resetting
    absorbs any earlier search or clearing and is idempotent; clearing
    absorbs an earlier search. *)
Theorem handlers_compose (st : state) (term term' : string) :
  handleSearchChange term' (handleSearchChange term st) = handleSearchChange term' st
  ∧ handleSearchChange term (clearSearch st) = handleSearchChange term st
  ∧ clearSearch (handleSearchChange term st) = clearSearch st
  ∧ resetApp (handleSearchChange term st) = resetApp st
  ∧ resetApp (clearSearch st) = resetApp st
  ∧ resetApp (resetApp st) = resetApp st.
Proof.
  split_and!.
  - unfold handleSearchChange at 2.
    destruct (_ && _); unfold handleSearchChange; simpl; reflexivity.
  - reflexivity.
  - unfold handleSearchChange. by destruct (_ && _).
  - unfold handleSearchChange. by destruct (_ && _).
  - reflexivity.
  - unfold resetApp. simpl. by rewrite clearFileInput_idemp.
Qed.

(** X10.  A completed upload replaces the record set wholesale: once the
    library is loaded, after the upload the record set is the projection
    of the new file (empty if the parser threw), and a query sees the rows
    of the new file only, whatever was loaded or shown before. *)
Theorem upload_replaces_record_set (st : state) (fileName : string) (p : parsed)
    (term : string) :
  isXLSXLoaded st = true →
  term ≠ "" →
  let json := match p with ParserReturned json => json | ParserThrew => [] end in
  excelData (upload fileName p st) = processedData json
  ∧ filteredResults (handleSearchChange term (upload fileName p st))
    = searchResults term (processedData json).
Proof.
  intros Hloaded Hterm json.
  assert (excelData (upload fileName p st) = processedData json) as Hdata.
  { unfold upload, handleFileUpload. rewrite Hloaded. simpl.
    destruct p as [|rows]; simpl; [done|].
    subst json. by destruct (processedData rows). }
  split; [done|].
  by rewrite handleSearchChange_results, Hdata.
Qed.

Lemma upload_replaces_record_set_witness :
  isXLSXLoaded searchedA = true ∧ "west" ≠ "" ∧
  excelData (upload "other.csv" (ParserReturned scenarioB) searchedA)
  = processedData scenarioB
  ∧ filteredResults (handleSearchChange "west"
                       (upload "other.csv" (ParserReturned scenarioB) searchedA))
    = searchResults "west" (processedData scenarioB).
Proof.
  split; [reflexivity|]. split; [discriminate|].
  apply (upload_replaces_record_set searchedA "other.csv" (ParserReturned scenarioB) "west");
    [reflexivity | discriminate].
Defined.

(** ** Invariants of the component *)

Lemma run_snoc (evs : list event) (ev : event) : run (evs ++ [ev]) = step (run evs) ev.
Proof. unfold run. apply foldl_snoc. Qed.

Lemma processedData_nil : processedData [] = [].
Proof. reflexivity. Qed.

Lemma step_recordSource (st : state) (rows : list rawRow) (ev : event) :
  excelData st = processedData rows →
  excelData (step st ev) = processedData (recordSource rows ev).
Proof.
  intros Hst. destruct ev as [| |[f|]|fileName [|json]|term| |]; simpl; try done.
  - by destruct (negb (isXLSXLoaded st)).
  - unfold onload. by destruct (processedData json).
  - unfold handleSearchChange. by destruct (_ && _).
Qed.

Lemma lastFile_snoc (evs : list event) (ev : event) :
  lastFile (evs ++ [ev]) = recordSource (lastFile evs) ev.
Proof. unfold lastFile. apply foldl_snoc. Qed.

(** X1.  At every moment the record set is the projection of the rows that
    the most recent completed read returned, and it is empty if since then
    a read failed, the file dialog was cancelled or the app was reset (or
    if there was no read at all).  It is never a merge of several files or
    a partial update, and all its records have both required fields
    truthy. *)
Theorem record_set_is_one_projection (evs : list event) :
  excelData (run evs) = processedData (lastFile evs)
  ∧ canonical (excelData (run evs)).
Proof.
  assert (excelData (run evs) = processedData (lastFile evs)) as Hproj.
  { induction evs as [|ev evs IH] using rev_ind; [done|].
    rewrite run_snoc, lastFile_snoc. by apply step_recordSource. }
  split; [done|]. rewrite Hproj. apply processedData_canonical.
Qed.

Lemma wellFormedResults_nil : wellFormedResults [].
Proof. split; constructor. Qed.

Lemma searchResults_wellFormed (term : string) (data : list (gmap string value)) :
  canonical data → wellFormedResults (searchResults term data).
Proof.
  intros Hcan. split.
  - apply Forall_forall. intros r. rewrite searchResults_firstWins. unfold firstWins.
    intros (row & -> & (i & Hl & _)%elem_of_firstRows)%list_elem_of_fmap.
    unfold canonical in Hcan. rewrite Forall_forall in Hcan.
    assert (row ∈ data) as Hin by (apply list_elem_of_lookup; by exists i).
    specialize (Hcan row Hin). unfold hasBothFields in Hcan.
    by apply andb_true_iff in Hcan.
  - rewrite searchResults_keys. apply foldl_visit_NoDup.
Qed.

Lemma step_wellFormed (st : state) (ev : event) :
  canonical (excelData st) →
  wellFormedResults (filteredResults st) →
  wellFormedResults (filteredResults (step st ev)).
Proof.
  intros Hcan Hst.
  destruct ev as [| |[f|]|fileName [|json]|term| |]; simpl;
    try done; try apply wellFormedResults_nil.
  - by destruct (negb (isXLSXLoaded st)).
  - unfold onload. destruct (0 <? length (processedData json)); simpl; [|done].
    apply wellFormedResults_nil.
  - unfold handleSearchChange. destruct (_ && _); simpl.
    + by apply searchResults_wellFormed.
    + apply wellFormedResults_nil.
Qed.

(** X2.  Whatever the history of uploads, searches, clearings and resets,
    the displayed results never contain two entries with the same
    lowercased territory key, and every entry has a truthy territory key
    and a truthy owner. *)
Theorem displayed_results_wellformed (evs : list event) :
  Forall (λ r, truthy (salesLevel6 r) = true ∧ truthy (sdrName r) = true)
         (filteredResults (run evs))
  ∧ NoDup (dedupKey <$> filteredResults (run evs)).
Proof.
  change (wellFormedResults (filteredResults (run evs))).
  induction evs as [|ev evs IH] using rev_ind; [apply wellFormedResults_nil|].
  unfold run in *. rewrite foldl_snoc.
  apply step_wellFormed; [apply run_canonical | exact IH].
Qed.

Lemma step_term_results (st : state) (ev : event) :
  (searchTerm st = "" → filteredResults st = []) →
  searchTerm (step st ev) = "" → filteredResults (step st ev) = [].
Proof.
  intros Hst.
  destruct ev as [| |[f|]|fileName [|json]|term| |]; simpl; try done.
  - by destruct (negb (isXLSXLoaded st)).
  - unfold onload. by destruct (0 <? length (processedData json)).
  - unfold handleSearchChange. destruct term as [|c term]; simpl; [done|].
    by destruct (0 <? length (excelData st)).
Qed.

(** X3.  Results are on display only while the search box holds a term:
    in every state the component reaches, an empty search term comes with
    an empty result list. *)
Theorem no_term_no_results (evs : list event) :
  searchTerm (run evs) = "" → filteredResults (run evs) = [].
Proof.
  induction evs as [|ev evs IH] using rev_ind; [done|].
  unfold run in *. rewrite foldl_snoc. by apply step_term_results.
Qed.

Lemma no_term_no_results_witness :
  let evs := [ LibraryLoaded; FileChosen (Some "territories.csv");
               ReadCompleted "territories.csv" (ParserReturned scenarioA);
               SearchTyped "west"; SearchCleared;
               ReadCompleted "broken.xlsx" ParserThrew ] in
  searchTerm (run evs) = "" ∧ filteredResults (run evs) = [].
Proof.
  intros evs. split; [reflexivity | apply (no_term_no_results evs); reflexivity].
Defined.

Lemma onload_isXLSXLoaded (fileName : string) (p : parsed) (st : state) :
  isXLSXLoaded (onload fileName p st) = isXLSXLoaded st.
Proof.
  unfold onload. destruct p as [|json]; [done|].
  by destruct (0 <? length (processedData json)).
Qed.

Lemma handleSearchChange_frame (term : string) (st : state) :
  isXLSXLoaded (handleSearchChange term st) = isXLSXLoaded st
  ∧ excelData (handleSearchChange term st) = excelData st
  ∧ fileSelected (handleSearchChange term st) = fileSelected st.
Proof. unfold handleSearchChange. by destruct (_ && _). Qed.

Lemma sysStep_libraryGuard (s : system) (ev : sysEvent) :
  libraryGuard s → libraryGuard (sysStep s ev).
Proof.
  unfold libraryGuard. intros Hs.
  destruct ev as [| |[name|]|i p|term| |]; cbn [sysStep].
  - done.
  - exact Hs.
  - unfold handleFileUpload. destruct (isXLSXLoaded (ui s)) eqn:E; simpl; [done|].
    intros _. by apply Hs.
  - simpl. intros Hl. by destruct (Hs Hl) as (-> & _ & _).
  - destruct (pending s !! i) as [name|] eqn:Ei; [|done].
    cbn [ui pending]. rewrite onload_isXLSXLoaded. intros Hl.
    destruct (Hs Hl) as (Hp & _ & _). by rewrite Hp in Ei.
  - cbn [ui pending].
    destruct (handleSearchChange_frame term (ui s)) as (-> & -> & ->). done.
  - done.
  - simpl. intros Hl. by destruct (Hs Hl) as (-> & _ & _).
Qed.

(** X4.  No file is read before the parsing library is loaded: in every
    state the component reaches with the library still missing, no read
    is in flight, the record set is empty and no file is marked as
    selected. *)
Theorem nothing_read_before_library (evs : list sysEvent) :
  isXLSXLoaded (ui (sysRun evs)) = false →
  pending (sysRun evs) = []
  ∧ excelData (ui (sysRun evs)) = []
  ∧ fileSelected (ui (sysRun evs)) = false.
Proof.
  change (libraryGuard (sysRun evs)).
  induction evs as [|ev evs IH] using rev_ind; [done|].
  unfold sysRun in *. rewrite foldl_snoc. by apply sysStep_libraryGuard.
Qed.

Lemma nothing_read_before_library_witness :
  let evs := [ SFileChosen (Some "territories.csv");
               SReadDone 0 (ParserReturned scenarioA);
               SSearchTyped "west" ] in
  isXLSXLoaded (ui (sysRun evs)) = false
  ∧ pending (sysRun evs) = []
  ∧ excelData (ui (sysRun evs)) = []
  ∧ fileSelected (ui (sysRun evs)) = false.
Proof.
  intros evs. split; [reflexivity | apply (nothing_read_before_library evs); reflexivity].
Defined.

(** The states of the system with in-flight reads are states of [run]. *)
Lemma sysRun_reachable (evs : list sysEvent) : ∃ evs', ui (sysRun evs) = run evs'.
Proof.
  induction evs as [|ev evs [evs' IH]] using rev_ind; [by exists []|].
  unfold sysRun in *. rewrite foldl_snoc.
  set (s := foldl sysStep _ evs) in *.
  destruct ev as [| |file|i p|term| |]; cbn [sysStep].
  - exists (evs' ++ [LibraryLoaded]). by rewrite run_snoc, <- IH.
  - exists (evs' ++ [LibraryFailed]). by rewrite run_snoc, <- IH.
  - exists (evs' ++ [FileChosen file]). by rewrite run_snoc, <- IH.
  - destruct (pending s !! i) as [name|]; [|by exists evs'].
    exists (evs' ++ [ReadCompleted name p]). by rewrite run_snoc, <- IH.
  - exists (evs' ++ [SearchTyped term]). by rewrite run_snoc, <- IH.
  - exists (evs' ++ [SearchCleared]). by rewrite run_snoc, <- IH.
  - exists (evs' ++ [ResetClicked]). by rewrite run_snoc, <- IH.
Qed.

Lemma step_messageConsistent (st : state) (ev : event) :
  messageConsistent st → messageConsistent (step st ev).
Proof.
  intros Hst. destruct ev as [| |[f|]|fileName [|json]|term| |].
  - exact I.
  - exact I.
  - simpl. destruct (isXLSXLoaded st); simpl; [exact Hst | exact I].
  - by split.
  - reflexivity.
  - unfold step, onload.
    destruct (processedData json) as [|r rs] eqn:E; simpl; [reflexivity|].
    unfold messageConsistent; simpl. split_and!; [done | lia | done].
  - unfold step, handleSearchChange, messageConsistent.
    destruct term as [|c term]; destruct (excelData st) as [|r rs] eqn:E; simpl;
      rewrite ?E; try (split_and!; done).
    + by right.
    + destruct (searchResults _ _) eqn:Er; simpl; [by split_and! | by left].
  - unfold step, clearSearch, messageConsistent.
    destruct (excelData st) eqn:E; simpl; rewrite ?E; [exact I | by split_and!].
  - by split_and!.
Qed.

(** X14.  The message on display is never stale.  In every reachable
    state: a success message carries the positive number of records now
    loaded; the failure messages stand over an empty record set; "no
    matching" stands over a loaded set, a non-empty term and no results;
    the prompts to start typing, to upload first, and the cleared and
    reset notices stand over the record set, term and results they
    describe; and no message at all means either results on display or
    nothing loaded and nothing typed. *)
Theorem message_never_stale (evs : list event) : messageConsistent (run evs).
Proof.
  induction evs as [|ev evs IH] using rev_ind; [exact I|].
  rewrite run_snoc. by apply step_messageConsistent.
Qed.

(** ** The view *)

(** X12.  The message paragraph is hidden exactly for the empty message,
    green exactly for the success message (whatever the count and the file
    name), blue exactly for the initial loading message, and in the red
    (error) style for every other message, the neutral prompts and the
    lower-case "still loading" notice included. *)
Theorem message_styling (m : message) :
  messageStyleOf m =
  match m with
  | MsgNone => Hidden
  | MsgLoaded _ _ => Green
  | MsgLoadingLibrary => Blue
  | _ => Red
  end.
Proof.
  destruct m; reflexivity.
Qed.

(** X13.  A file takes the text path exactly when its name, lowercased,
    ends in ".csv"; the letter case of the name is irrelevant, and the
    reader method and the parser input type always agree. *)
Theorem csv_dispatch (fileName : string) :
  (isCsvName fileName = true ↔ ∃ stem, toLowerCase fileName = stem +:+ ".csv")
  ∧ isCsvName (toLowerCase fileName) = isCsvName fileName
  ∧ (readMethodOf fileName = ReadAsText ↔ parseTypeOf fileName = TypeString)
  ∧ (readMethodOf fileName = ReadAsArrayBuffer ↔ parseTypeOf fileName = TypeArray).
Proof.
  split_and!.
  - apply endsWith_spec.
  - unfold isCsvName. by rewrite toLowerCase_idemp.
  - unfold readMethodOf, parseTypeOf. by destruct (isCsvName fileName).
  - unfold readMethodOf, parseTypeOf. by destruct (isCsvName fileName).
Qed.

(** ** Cells kept and rows kept *)

Lemma filter_none {A} (P : A → Prop) `{∀ x, Decision (P x)} (l : list A) :
  (∀ x, x ∈ l → ¬ P x) → filter P l = [].
Proof.
  induction l as [|a l IH]; intros Hall; [done|].
  rewrite filter_cons_False by (apply Hall; left).
  apply IH. intros x Hx. apply Hall. by right.
Qed.

Lemma filter_routed_unique (row : rawRow) (k : string) (v : value) :
  NoDup (headerField <$> row.*1) → (k, v) ∈ row →
  filter (λ kv : string * value, headerField kv.1 = headerField k) row = [(k, v)].
Proof.
  induction row as [|[k' v'] row IH]; intros Hnd Hin.
  - by apply elem_of_nil in Hin.
  - rewrite !fmap_cons in Hnd. simpl in Hnd. apply NoDup_cons in Hnd as [Hfresh Hnd].
    assert (∀ k0 v0, (k0, v0) ∈ row → headerField k0 ≠ headerField k') as Hothers.
    { intros k0 v0 H0 E. apply Hfresh. rewrite <- E.
      apply list_elem_of_fmap. exists k0. split; [done|].
      apply list_elem_of_fmap. by exists (k0, v0). }
    apply elem_of_cons in Hin as [[= -> ->] | Hin].
    + rewrite filter_cons_True by done. f_equal.
      apply filter_none. intros [k0 v0] H0 E. simpl in E.
      by apply (Hothers k0 v0).
    + rewrite filter_cons_False; [by apply IH|].
      simpl. intros E. by apply (Hothers k v).
Qed.

(** X15.  When no two headers of a row are routed to the same property,
    no cell is lost except under [__proto__]: every cell whose header is
    not routed to [__proto__] is found in the projected record under the
    property its header is routed to, while the record never holds a
    property [__proto__], whatever the headers. *)
Theorem cells_preserved_without_collision (row : rawRow) (k : string) (v : value) :
  NoDup (headerField <$> row.*1) →
  (k, v) ∈ row →
  headerField k ≠ "__proto__" →
  projectRow row !! headerField k = Some v
  ∧ projectRow row !! "__proto__" = None.
Proof.
  intros Hnd Hin Hk. unfold projectRow. split.
  - by rewrite foldl_assign_lookup, (filter_routed_unique row k v Hnd Hin).
  - by rewrite foldl_assign_proto.
Qed.

Lemma cells_preserved_without_collision_witness :
  let row : rawRow :=
    [("Sales Level 6", VString "West-1"); ("SDR Name", VString "Alice");
     (" Region ", VNumber 7); ("__PROTO__", VString "lost")] in
  NoDup (headerField <$> row.*1) ∧ (" Region ", VNumber 7) ∈ row
  ∧ headerField " Region " ≠ "__proto__"
  ∧ projectRow row !! headerField " Region " = Some (VNumber 7)
  ∧ projectRow row !! "__proto__" = None.
Proof.
  intros row.
  assert (NoDup (headerField <$> row.*1)) as Hnd.
  { apply (bool_decide_unpack _). vm_compute. exact I. }
  assert ((" Region ", VNumber 7) ∈ row) as Hin.
  { do 2 right. left. }
  assert (headerField " Region " ≠ "__proto__") as Hk.
  { vm_compute. discriminate. }
  split; [exact Hnd|]. split; [exact Hin|]. split; [exact Hk|].
  exact (cells_preserved_without_collision row " Region " (VNumber 7) Hnd Hin Hk).
Defined.

(** X16.  A raw row is kept exactly when the last header routed to the
    territory key and the last header routed to the owner name both exist
    and both carry a truthy cell; a blank, [0] or [false] cell in either
    place drops the row. *)
Theorem row_kept_iff (row : rawRow) :
  hasBothFields (projectRow row) = true ↔
  ∃ kv1 kv2,
    last (filter (λ kv : string * value, headerField kv.1 = "salesLevel6") row) = Some kv1
    ∧ truthy kv1.2 = true
    ∧ last (filter (λ kv : string * value, headerField kv.1 = "sdrName") row) = Some kv2
    ∧ truthy kv2.2 = true.
Proof.
  unfold hasBothFields, prop, projectRow.
  rewrite !foldl_assign_lookup, !lookup_empty, andb_true_iff by done.
  destruct (last (filter (λ kv : string * value, headerField kv.1 = "salesLevel6") row))
    as [kv1|]; simpl.
  - destruct (last (filter (λ kv : string * value, headerField kv.1 = "sdrName") row))
      as [kv2|]; simpl.
    + split.
      * intros [H1 H2]. by exists kv1, kv2.
      * intros (a & b & [= <-] & H1 & [= <-] & H2). done.
    + split; [by intros [_ ?] | by intros (a & b & _ & _ & ? & _)].
  - split; [by intros [? _] | by intros (a & b & ? & _)].
Qed.
